(** * The SQL Server dialect of the ORM (client/orm/db_mssql.go)

    A shallow embedding of the dialect: its operator table, its
    reserved-word set, the placeholder rewriting of [ReplaceMarks], the
    catalog queries and the capability predicates, followed by the
    properties the specification states about them.

    Go strings are byte sequences; they are modelled by [string], whose
    characters are the 8-bit [ascii]. A Go [map[string]T] is a
    [gmap string T]; a lookup of a missing key yields the zero value. *)

From Stdlib Require Import ZArith Ascii DecimalString.
From stdpp Require Import gmap strings list.

Local Open Scope Z_scope.

(** ** The parts of the Go library the dialect calls *)

Module GoLib.

(** [strings.Split(s, sep)] for a one-byte separator, which is what both
    call sites of the dialect pass (["?"] and [","]): the pieces of [s]
    between the separators, so that a string with [k] separators yields
    [k + 1] pieces and the empty string yields one empty piece. *)
Fixpoint Split (s : string) (sep : ascii) : list string :=
  match s with
  | EmptyString => [EmptyString]
  | String c s' =>
      if Ascii.eqb c sep then EmptyString :: Split s' sep
      else match Split s' sep with
           | [] => [String c EmptyString]
           | piece :: pieces => String c piece :: pieces
           end
  end.

(** [strconv.FormatInt(i, 10)]: the decimal rendering, ["0"] for zero and
    a leading minus sign for a negative number. *)
Definition FormatInt (i : Z) : string :=
  NilZero.string_of_int (Z.to_int i).

(** Bytes below [utf8.RuneSelf]. *)
Definition isASCIIByte (c : ascii) : bool := (N_of_ascii c <? 128)%N.

Definition isUpperByte (c : ascii) : bool :=
  ((65 <=? N_of_ascii c) && (N_of_ascii c <=? 90))%N.

Definition isLowerByte (c : ascii) : bool :=
  ((97 <=? N_of_ascii c) && (N_of_ascii c <=? 122))%N.

Definition toLowerByte (c : ascii) : ascii :=
  if isUpperByte c then ascii_of_N (N_of_ascii c + 32) else c.

Definition toUpperByte (c : ascii) : ascii :=
  if isLowerByte c then ascii_of_N (N_of_ascii c - 32) else c.

Fixpoint mapBytes (f : ascii -> ascii) (s : string) : string :=
  match s with
  | EmptyString => EmptyString
  | String c s' => String (f c) (mapBytes f s')
  end.

Fixpoint allBytes (p : ascii -> bool) (s : string) : bool :=
  match s with
  | EmptyString => true
  | String c s' => p c && allBytes p s'
  end.

Fixpoint anyByte (p : ascii -> bool) (s : string) : bool :=
  match s with
  | EmptyString => false
  | String c s' => p c || anyByte p s'
  end.

(** The test [strings.ToLower] and [strings.ToUpper] make first: a string
    of bytes below [utf8.RuneSelf] takes their byte-wise path. *)
Definition isASCII (s : string) : bool := allBytes isASCIIByte s.

(** [strings.ToLower] and [strings.ToUpper] on their byte-wise path. For
    a string that is not [isASCII] Go maps runes through the Unicode
    tables, which this model does not cover: statements about these two
    functions on an arbitrary string are made under [isASCII]. *)
Definition ToLower (s : string) : string := mapBytes toLowerByte s.
Definition ToUpper (s : string) : string := mapBytes toUpperByte s.

(** [strings.Count(s, sep)] for a one-byte separator. *)
Fixpoint CountByte (s : string) (sep : ascii) : nat :=
  match s with
  | EmptyString => O
  | String c s' => (if Ascii.eqb c sep then 1 else 0)%nat + CountByte s' sep
  end.

Fixpoint HasPrefix (s prefix : string) : bool :=
  match prefix, s with
  | EmptyString, _ => true
  | String _ _, EmptyString => false
  | String p prefix', String c s' => Ascii.eqb c p && HasPrefix s' prefix'
  end.

(** [strings.Count(s, substr)] for a non-empty [substr]: the number of
    non-overlapping occurrences, found left to right. [skip] is the number
    of bytes still covered by the occurrence found last. *)
Fixpoint countFrom (s substr : string) (skip : nat) : nat :=
  match s with
  | EmptyString => O
  | String _ s' =>
      match skip with
      | S skip' => countFrom s' substr skip'
      | O =>
          if HasPrefix s substr
          then S (countFrom s' substr (String.length substr - 1))
          else countFrom s' substr O
      end
  end.

Definition Count (s substr : string) : nat := countFrom s substr O.

(** [strings.Contains]. *)
Definition Contains (s substr : string) : bool :=
  match substr with
  | EmptyString => true
  | _ => negb (Nat.eqb (Count s substr) O)
  end.

(** [fmt.Sprintf] restricted to what the dialect's templates hold: the
    verb [%s] applied to string operands, and [%%]. A [%s] without an
    operand left prints [%!s(MISSING)], operands left over are reported in
    a trailing [%!(EXTRA ...)], as the fmt package does. Another byte
    after [%] would be a verb outside this model; it is copied through. *)
Fixpoint extraOperands (args : list string) : string :=
  match args with
  | [] => ""
  | [a] => "string=" +:+ a
  | a :: rest => "string=" +:+ a +:+ ", " +:+ extraOperands rest
  end.

Fixpoint Sprintf (format : string) (args : list string) : string :=
  match format with
  | EmptyString =>
      match args with
      | [] => ""
      | _ :: _ => "%!(EXTRA " +:+ extraOperands args +:+ ")"
      end
  | String c rest =>
      if Ascii.eqb c "%" then
        match rest with
        | String v rest' =>
            if Ascii.eqb v "s" then
              match args with
              | a :: args' => a +:+ Sprintf rest' args'
              | [] => "%!s(MISSING)" +:+ Sprintf rest' []
              end
            else if Ascii.eqb v "%" then String "%" (Sprintf rest' args)
            else String c (String v (Sprintf rest' args))
        | EmptyString => "%!(NOVERB)" +:+ Sprintf rest args
        end
      else String c (Sprintf rest args)
  end.

(** The Go [for i := 0; i < n; i++ { st = body(i, st) }] loop. *)
Definition forUpTo {St : Type} (n : nat) (body : nat -> St -> St) (st : St) : St :=
  fold_left (fun acc i => body i acc) (seq 0 n) st.

(** Indexing a slice of strings; the source indexes within bounds. *)
Definition at_index (ss : list string) (i : nat) : string := nth i ss "".

End GoLib.

Import GoLib.

(** ** The dialect *)

(** mssql operators. *)
Definition mssqlOperators : gmap string string :=
  list_to_map
    [ ("exact",       "= ?");
      ("iexact",      "= UPPER(?)");
      ("contains",    "LIKE ?");
      ("icontains",   "LIKE UPPER(?)");
      ("gt",          "> ?");
      ("gte",         ">= ?");
      ("lt",          "< ?");
      ("lte",         "<= ?");
      ("eq",          "= ?");
      ("ne",          "!= ?");
      ("startswith",  "LIKE ?");
      ("endswith",    "LIKE ?");
      ("istartswith", "LIKE UPPER(?)");
      ("iendswith",   "LIKE UPPER(?)") ].

(** Get mssql operator: a Go map lookup, the empty string for a key the
    map does not hold. *)
Definition OperatorSQL (operator : string) : string :=
  default "" (mssqlOperators !! operator).

(** [ReplaceMarks] rewrites the query behind its pointer argument; the
    model returns the new value of [*query]. *)
Definition ReplaceMarks (query : string) : string :=
  let ss := Split query "?" in
  if (1 <? length ss)%nat then
    let query :=
      forUpTo (length ss - 1)
        (fun i query =>
           query +:+ at_index ss i +:+ "$" +:+ FormatInt (Z.of_nat i + 1))
        "" in
    query +:+ at_index ss (length ss - 1)
  else query.

(** The reserved words of SQL Server, as one comma-separated constant. *)
Definition sqlServerKeywords : string :=
  "ADD,EXTERNAL,NATIONAL,SUBSTRING,ALL,FETCH,NCHAR,SUM,ALTER," +:+
  "FILE,NEXT,SYMMETRIC,AND,FILEGROUP,NOCHECK,THEN,ANY," +:+
  "FILESTREAM,NONCLUSTERED,TO,AS,FILLFACTOR,NOT,TOP,ASC,FOR," +:+
  "NULL,TRAN,AUTHORIZATION,FOREIGN,NULLIF,TRIGGER,BACKUP," +:+
  "FREETEXT,NUMERIC,TRUNCATE,BEGIN,FREETEXTTABLE,OF," +:+
  "TRY_CONVERT,BETWEEN,FROM,OFF,TSEQUAL,BROWSE,FUNCTION,ON," +:+
  "UNION,BULK,GOTO,OPEN,UNIQUE,BY,GRANT,OPENDATASOURCE,UNPIVOT," +:+
  "CASCADE,GROUP,OPENQUERY,UPDATE,CASE,HAVING,OPENROWSET," +:+
  "UPDATETEXT,CHECK,HOLDLOCK,OPENXML,USE,CHECKPOINT,IDENTITY," +:+
  "OPTION,USER,CLOSE,IF,OR,VALUES,CLUSTERED,IN,ORDER,VARYING," +:+
  "COALESCE,INDEX,OUTER,VIEW,COLLATE,INNER,OVER,WAITFOR,COLUMN," +:+
  "INSERT,PERCENT,WHEN,COMMIT,INTERSECT,PIVOT,WHERE,COMPUTE," +:+
  "INTO,PLAN,WHILE,CONSTRAINT,IS,PRECISION,WITH,CONTAINS," +:+
  "ISNULL,PRIMARY,WITHIN GROUP,CONTAINSTABLE,JOIN,PRINT," +:+
  "WRITETEXT,CONTINUE,KEY,PROC,CONVERT,KILL,PROCEDURE,CREATE," +:+
  "LEFT,PUBLIC,CROSS,LIKE,RAISERROR,CURRENT,LINENO,READ," +:+
  "CURRENT_DATE,LOAD,READTEXT,CURRENT_TIME,MERGE,RECONFIGURE," +:+
  "CURRENT_TIMESTAMP,MINUTE,REFERENCES,CURSOR,MONEY," +:+
  "REPLICATION,DATABASE,NATIONAL,RESTORE,TYPE,DESC,key_type," +:+
  "interval".

(** [init] fills the package-level map [SqlServerKeywords]: every piece of
    the constant between commas is entered in lower case. *)
Definition init : gmap string () :=
  let keywordList := Split sqlServerKeywords "," in
  fold_left (fun m keyword => <[ToLower keyword := ()]> m) keywordList ∅.

Definition SqlServerKeywords : gmap string () := init.

(** [_, exists := SqlServerKeywords[key]]: the key is looked up as it is
    given. *)
Definition IsSqlServerKeyword (key : string) : bool :=
  match SqlServerKeywords !! key with
  | Some _ => true
  | None => false
  end.

(** mssql support updating joined record. *)
Definition SupportUpdateJoin : bool := true.

Definition TableQuote : string := "".

(** The line feed and the tab of the raw string literals. *)
Definition LF : string := String (ascii_of_N 10) "".
Definition TAB : string := String (ascii_of_N 9) "".

(** show table sql for mssql. *)
Definition ShowTablesQuery : string :=
  "SELECT" +:+ LF +:+
  TAB +:+ "TABLE_NAME" +:+ LF +:+
  "FROM" +:+ LF +:+
  TAB +:+ "INFORMATION_SCHEMA.TABLES" +:+ LF +:+
  "WHERE" +:+ LF +:+
  TAB +:+ "TABLE_TYPE = 'BASE TABLE'" +:+ LF +:+
  TAB +:+ "AND TABLE_SCHEMA NOT IN ('sys', 'INFORMATION_SCHEMA')".

(** The template of [ShowColumnsQuery]. *)
Definition showColumnsSql : string :=
  "select" +:+ LF +:+
  TAB +:+ "COLUMN_NAME," +:+ LF +:+
  TAB +:+ "DATA_TYPE," +:+ LF +:+
  TAB +:+ "IS_NULLABLE" +:+ LF +:+
  "from" +:+ LF +:+
  TAB +:+ "INFORMATION_SCHEMA.COLUMNS" +:+ LF +:+
  "where" +:+ LF +:+
  TAB +:+ "TABLE_SCHEMA not in ('sys', 'INFORMATION_SCHEMA')" +:+ LF +:+
  TAB +:+ "and TABLE_NAME = '%s';".

(** show table Columns sql for mssql. *)
Definition ShowColumnsQuery (table : string) : string :=
  Sprintf showColumnsSql [table].

(** The template of [IndexExists]. *)
Definition countIndexSql : string :=
  "SELECT" +:+ LF +:+
  TAB +:+ "COUNT(*) AS IndexCount" +:+ LF +:+
  "FROM" +:+ LF +:+
  TAB +:+ "sys.indexes i" +:+ LF +:+
  "INNER JOIN sys.objects o ON" +:+ LF +:+
  TAB +:+ "i.object_id = o.object_id" +:+ LF +:+
  "WHERE" +:+ LF +:+
  TAB +:+ "o.type = 'U'" +:+ LF +:+
  TAB +:+ "AND o.name = '%s'" +:+ LF +:+
  TAB +:+ "AND i.name = '%s'".

(** The query-execution collaborator of [IndexExists]. Its types are
    declared outside this file: the context handed through, the error
    values, and the querier, of which [IndexExists] calls one method. *)
Section Querier.

Variable Ctx : Type.
Variable error : Type.

(** The row the querier returned, by what [row.Scan(&cnt)] of
    database/sql does with it. The scan returns the error the query left
    in the row, the error of fetching the one row ([ErrNoRows] when there
    is none) or the error of converting the column, and has then stored
    nothing; otherwise it stores the count and returns what closing the
    rows returns, which is [nil] or an error. *)
Inductive Row : Type :=
| RowCount (n : Z)
| RowErr (e : error)
| RowCountThenErr (n : Z) (e : error).

Record dbQuerier : Type :=
  { QueryRowContext : Ctx -> string -> Row }.

(** [row.Scan(dest)]: the new value of [*dest] and the returned error. *)
Definition Scan (row : Row) (dest : Z) : Z * option error :=
  match row with
  | RowCount n => (n, None)
  | RowErr e => (dest, Some e)
  | RowCountThenErr n e => (n, Some e)
  end.

(** check index exist in mssql. The error [Scan] returns is dropped by
    the call statement; [cnt] starts at zero. *)
Definition IndexExists (ctx : Ctx) (db : dbQuerier)
    (table name : string) : bool :=
  let query := Sprintf countIndexSql [table; name] in
  let row := QueryRowContext db ctx query in
  let cnt := 0 in
  let (cnt, _) := Scan row cnt in
  cnt >? 0.

End Querier.

Arguments RowCount {error} n.
Arguments RowErr {error} e.
Arguments RowCountThenErr {error} n e.
Arguments Build_dbQuerier {Ctx error} _.
Arguments QueryRowContext {Ctx error} _ _ _.
Arguments Scan {error} row dest.
Arguments IndexExists {Ctx error} ctx db table name.

(** The line [DebugLog.Println] writes for an index hint. *)
Definition specifyIndexWarning : string :=
  "[WARN] Not support any specifying index action, so that action is ignored".

(** GenerateSpecifyIndex return a specifying index clause. [DebugLog] is
    the logger of the package; the model threads the lines written to it
    and returns the clause with the new log. *)
Definition GenerateSpecifyIndex (tableName : string) (useIndex : Z)
    (indexes : list string) (log : list string) : string * list string :=
  ("", log ++ [specifyIndexWarning]).

(** [HasReturningID]: the model description may be [nil], and so may the
    pointer to the query, which is left as it is. *)
Definition HasReturningID {modelInfo : Type}
    (mi : option modelInfo) (query : option string) : bool :=
  false.

(** ** What the specification says of placeholder rewriting

    This definition follows the specification's words, not the code: the
    text is read left to right, the marker met when [k - 1] markers have
    been passed becomes [$k], and every other byte is copied. *)
Fixpoint numberMarks (k : Z) (s : string) : string :=
  match s with
  | EmptyString => EmptyString
  | String c s' =>
      if Ascii.eqb c "?"
      then "$" +:+ FormatInt k +:+ numberMarks (k + 1) s'
      else String c (numberMarks k s')
  end.

(** The pieces of a split joined again with numbered placeholders, the
    first of them [$(k+1)]: what the loop of [ReplaceMarks] builds. *)
Fixpoint joinNumbered (k : nat) (ss : list string) : string :=
  match ss with
  | [] => ""
  | piece :: rest =>
      match rest with
      | [] => piece
      | _ :: _ =>
          piece +:+ "$" +:+ FormatInt (Z.of_nat k + 1) +:+ joinNumbered (S k) rest
      end
  end.

(** ** The sets and texts the specification names *)

(** The supported set of abstract operators, as the specification lists
    it. *)
Definition supportedOperators : list string :=
  [ "exact"; "iexact"; "contains"; "icontains"; "gt"; "gte"; "lt"; "lte";
    "eq"; "ne"; "startswith"; "endswith"; "istartswith"; "iendswith" ].

(** Each case-sensitive match operator with its case-insensitive
    variant. *)
Definition caseVariants : list (string * string) :=
  [ ("exact", "iexact"); ("contains", "icontains");
    ("startswith", "istartswith"); ("endswith", "iendswith") ].

(** The template of [ShowColumnsQuery] up to its slot. *)
Definition showColumnsHead : string :=
  "select" +:+ LF +:+
  TAB +:+ "COLUMN_NAME," +:+ LF +:+
  TAB +:+ "DATA_TYPE," +:+ LF +:+
  TAB +:+ "IS_NULLABLE" +:+ LF +:+
  "from" +:+ LF +:+
  TAB +:+ "INFORMATION_SCHEMA.COLUMNS" +:+ LF +:+
  "where" +:+ LF +:+
  TAB +:+ "TABLE_SCHEMA not in ('sys', 'INFORMATION_SCHEMA')" +:+ LF +:+
  TAB +:+ "and TABLE_NAME = '".

(** The template of [IndexExists] up to its first slot, and between its
    two slots. *)
Definition countIndexHead : string :=
  "SELECT" +:+ LF +:+
  TAB +:+ "COUNT(*) AS IndexCount" +:+ LF +:+
  "FROM" +:+ LF +:+
  TAB +:+ "sys.indexes i" +:+ LF +:+
  "INNER JOIN sys.objects o ON" +:+ LF +:+
  TAB +:+ "i.object_id = o.object_id" +:+ LF +:+
  "WHERE" +:+ LF +:+
  TAB +:+ "o.type = 'U'" +:+ LF +:+
  TAB +:+ "AND o.name = '".

Definition countIndexMiddle : string :=
  "'" +:+ LF +:+ TAB +:+ "AND i.name = '".

(** Queriers to run [IndexExists] on: one whose row fails to scan with
    the error [e], one whose row holds the count [n], and one whose row
    holds the count [n] and fails with [e] when its rows are closed.
    Contexts are of type [unit] and errors are their messages. *)
Definition failingQuerier (e : string) : dbQuerier unit string :=
  {| QueryRowContext := fun _ _ => RowErr e |}.

Definition countingQuerier (n : Z) : dbQuerier unit string :=
  {| QueryRowContext := fun _ _ => RowCount n |}.

Definition closeFailingQuerier (n : Z) (e : string) : dbQuerier unit string :=
  {| QueryRowContext := fun _ _ => RowCountThenErr n e |}.

(** ** The column types *)

(** mssql column field types. *)
Definition mssqlTypes : gmap string string :=
  list_to_map
    [ ("auto",            "IDENTITY(1,1) NOT NULL PRIMARY KEY");
      ("pk",              "NOT NULL PRIMARY KEY");
      ("bool",            "bit");
      ("string",          "varchar(%d)");
      ("string-char",     "char(%d)");
      ("string-text",     "text");
      ("time.Time-date",  "date");
      ("time.Time",       "datetime");
      ("int8",            "tinyint");
      ("int16",           "smallint");
      ("int32",           "int");
      ("int64",           "bigint");
      ("uint8",           "tinyint");
      ("uint16",          "smallint");
      ("uint32",          "int");
      ("uint64",          "bigint");
      ("float64",         "float(53)");
      ("float64-decimal", "number(%d, %d)") ].

(** Get column types of mssql. *)
Definition DbTypes : gmap string string := mssqlTypes.

(** The decimal digits. *)
Definition isDigitByte (c : ascii) : bool :=
  ((48 <=? N_of_ascii c) && (N_of_ascii c <=? 57))%N.

(** The signed field kind of the width of an unsigned one. *)
Definition signedKind (kind : string) : option string :=
  if decide (kind = "uint8") then Some "int8"
  else if decide (kind = "uint16") then Some "int16"
  else if decide (kind = "uint32") then Some "int32"
  else if decide (kind = "uint64") then Some "int64"
  else None.

(** * Properties *)

(** ** Strings *)

Section StringFacts.

(** The two equations of [+:+], which [simpl] leaves folded. *)
Lemma append_nil_l (b : string) : "" +:+ b = b.
Proof. reflexivity. Qed.

Lemma append_cons (x : ascii) (a b : string) :
  String x a +:+ b = String x (a +:+ b).
Proof. reflexivity. Qed.

Lemma append_assoc (a b c : string) : (a +:+ b) +:+ c = a +:+ (b +:+ c).
Proof.
  induction a as [|x a IH]; [reflexivity |].
  by rewrite !append_cons, IH.
Qed.

Lemma append_nil_r (a : string) : a +:+ "" = a.
Proof.
  induction a as [|x a IH]; [reflexivity |].
  by rewrite append_cons, IH.
Qed.

Lemma Split_not_nil (s : string) (sep : ascii) : Split s sep ≠ [].
Proof.
  destruct s as [|c s]; simpl; [done |].
  destruct (Ascii.eqb c sep); [done |].
  by destruct (Split s sep).
Qed.

(** A string with [k] separators splits into [k + 1] pieces. *)
Lemma Split_length (s : string) (sep : ascii) :
  length (Split s sep) = S (CountByte s sep).
Proof.
  induction s as [|c s IH]; simpl; [reflexivity |].
  destruct (Ascii.eqb c sep); simpl; [by rewrite IH |].
  destruct (Split s sep) as [|p ps] eqn:E; simpl in *; [done | exact IH].
Qed.

Lemma Split_no_sep (s : string) (sep : ascii) :
  CountByte s sep = O -> Split s sep = [s].
Proof.
  induction s as [|c s IH]; simpl; [reflexivity |].
  destruct (Ascii.eqb c sep); [done |].
  intros H. by rewrite (IH H).
Qed.

Lemma lookup_at_index (ss : list string) (i : nat) :
  (i < length ss)%nat -> ss !! i = Some (at_index ss i).
Proof.
  intros Hi. unfold at_index.
  destruct (nth_lookup_or_length ss i "") as [H | H]; [exact H | lia].
Qed.

Lemma drop_at_index (ss : list string) (i : nat) :
  (i < length ss)%nat -> drop i ss = at_index ss i :: drop (S i) ss.
Proof. intros Hi. apply drop_S. by apply lookup_at_index. Qed.

Lemma joinNumbered_cons_pair (k : nat) (a b : string) (rest : list string) :
  joinNumbered k (a :: b :: rest)
  = a +:+ "$" +:+ FormatInt (Z.of_nat k + 1) +:+ joinNumbered (S k) (b :: rest).
Proof. reflexivity. Qed.

Lemma joinNumbered_cons_byte (k : nat) (c : ascii) (p : string) (ps : list string) :
  joinNumbered k (String c p :: ps) = String c (joinNumbered k (p :: ps)).
Proof. by destruct ps. Qed.

End StringFacts.

(** ** Placeholder rewriting *)

Section Marks.

(** Loop invariant: after the iterations [a .. a + n - 1] the query holds
    what it held before, then the pieces [a .. a + n - 1], each followed
    by its placeholder; the last piece closes the text. *)
Lemma loop_joins (ss : list string) (n a : nat) (acc : string) :
  (a + n + 1 = length ss)%nat ->
  fold_left
    (fun query i =>
       query +:+ at_index ss i +:+ "$" +:+ FormatInt (Z.of_nat i + 1))
    (seq a n) acc
  +:+ at_index ss (a + n)
  = acc +:+ joinNumbered a (drop a ss).
Proof.
  revert a acc. induction n as [|n IH]; intros a acc Hlen; simpl.
  - rewrite Nat.add_0_r.
    rewrite drop_at_index by lia.
    rewrite drop_ge by lia. reflexivity.
  - replace (a + S n)%nat with (S a + n)%nat by lia.
    rewrite IH by lia.
    rewrite (drop_at_index ss a) by lia. simpl.
    destruct (drop (S a) ss) as [|p ps] eqn:E.
    + exfalso. apply (f_equal length) in E. rewrite length_drop in E.
      simpl in E. lia.
    + by rewrite !append_assoc.
Qed.

(** The code's result, whenever there is a marker, is the join of the
    pieces with numbered placeholders. *)
Lemma ReplaceMarks_join (query : string) :
  ReplaceMarks query = joinNumbered 0 (Split query "?").
Proof.
  unfold ReplaceMarks. cbv zeta.
  destruct (1 <? length (Split query "?"))%nat eqn:Hlt.
  - apply Nat.ltb_lt in Hlt. unfold forUpTo.
    pose proof (loop_joins (Split query "?")
                  (length (Split query "?") - 1) 0 "") as H.
    simpl in H. rewrite drop_0 in H. apply H. lia.
  - apply Nat.ltb_ge in Hlt. rewrite Split_length in Hlt.
    rewrite Split_no_sep by lia. reflexivity.
Qed.

(** The join of the pieces is the left-to-right numbering. *)
Lemma join_numberMarks (s : string) (k : nat) :
  joinNumbered k (Split s "?") = numberMarks (Z.of_nat k + 1) s.
Proof.
  revert k. induction s as [|c s IH]; intros k; [reflexivity |].
  cbn [Split numberMarks].
  pose proof (Split_not_nil s "?") as Hne.
  destruct (Ascii.eqb c "?"); destruct (Split s "?") as [|p ps]; try done.
  - rewrite joinNumbered_cons_pair, IH, append_nil_l.
    do 3 f_equal. lia.
  - by rewrite joinNumbered_cons_byte, IH.
Qed.

Lemma numberMarks_no_marks (s : string) (k : Z) :
  CountByte s "?" = O -> numberMarks k s = s.
Proof.
  induction s as [|c s IH]; simpl; [reflexivity |].
  destruct (Ascii.eqb c "?"); [done |].
  intros H. by rewrite (IH H).
Qed.

(** Numbering a text in two parts: the second part goes on counting
    where the first stopped. *)
Lemma numberMarks_app (before after : string) (k : Z) :
  numberMarks k (before +:+ after)
  = numberMarks k before
    +:+ numberMarks (k + Z.of_nat (CountByte before "?")) after.
Proof.
  revert k. induction before as [|c before IH]; intros k.
  - rewrite !append_nil_l. cbn [CountByte numberMarks Z.of_nat].
    by rewrite Z.add_0_r.
  - rewrite append_cons. cbn [numberMarks CountByte].
    destruct (Ascii.eqb c "?").
    + rewrite IH, !append_assoc.
      replace (k + 1 + Z.of_nat (CountByte before "?"))
        with (k + Z.of_nat (1 + CountByte before "?")) by lia.
      reflexivity.
    + by rewrite IH, append_cons.
Qed.

End Marks.

(** ** Formatting *)

Section Formatting.

(** A text without [%] is printed as it is. *)
Lemma Sprintf_plain (text : string) :
  CountByte text "%" = O -> Sprintf text [] = text.
Proof.
  induction text as [|c text IH]; [reflexivity |].
  cbn [CountByte Sprintf].
  destruct (Ascii.eqb c "%"); [done |].
  intros H. by rewrite (IH H).
Qed.

(** A [%s] after a text without [%] takes the first operand. *)
Lemma Sprintf_slot (head rest a : string) (args : list string) :
  CountByte head "%" = O ->
  Sprintf (head +:+ "%s" +:+ rest) (a :: args)
  = head +:+ a +:+ Sprintf rest args.
Proof.
  induction head as [|c head IH]; [reflexivity |].
  rewrite !(append_cons c). cbn [CountByte Sprintf].
  destruct (Ascii.eqb c "%"); [done |].
  intros H. by rewrite (IH H).
Qed.

Lemma ShowColumnsQuery_text (table : string) :
  ShowColumnsQuery table = showColumnsHead +:+ table +:+ "';".
Proof.
  unfold ShowColumnsQuery.
  change showColumnsSql with (showColumnsHead +:+ "%s" +:+ "';").
  rewrite Sprintf_slot by reflexivity.
  by rewrite Sprintf_plain.
Qed.

Lemma countIndexQuery_text (table name : string) :
  Sprintf countIndexSql [table; name]
  = countIndexHead +:+ table +:+ countIndexMiddle +:+ name +:+ "'".
Proof.
  change countIndexSql
    with (countIndexHead +:+ "%s" +:+ countIndexMiddle +:+ "%s" +:+ "'").
  rewrite !Sprintf_slot by reflexivity.
  by rewrite Sprintf_plain.
Qed.

End Formatting.

(** ** The operator table *)

Section Operators.

(** The keys of the table are the supported set. *)
Lemma mssqlOperators_keys (op : string) :
  is_Some (mssqlOperators !! op) <-> In op supportedOperators.
Proof.
  rewrite <- list_elem_of_In, <- not_eq_None_Some.
  unfold mssqlOperators. rewrite <- not_elem_of_list_to_map.
  split; [apply dec_stable | auto].
Qed.

Lemma OperatorSQL_missing (op : string) :
  mssqlOperators !! op = None -> OperatorSQL op = "".
Proof. unfold OperatorSQL. by intros ->. Qed.

End Operators.

(** ** Letter case and the reserved words *)

Section Keywords.

(** Facts about single bytes are settled by going through the bytes. *)
Local Ltac each_byte c :=
  destruct c as [[] [] [] [] [] [] [] []]; vm_compute; reflexivity.

Lemma toLowerByte_not_upper (c : ascii) : isUpperByte (toLowerByte c) = false.
Proof. each_byte c. Qed.

Lemma toLowerByte_idem (c : ascii) : toLowerByte (toLowerByte c) = toLowerByte c.
Proof. each_byte c. Qed.

Lemma toLowerByte_toUpperByte (c : ascii) :
  toLowerByte (toUpperByte c) = toLowerByte c.
Proof. each_byte c. Qed.

Lemma ToLower_no_upper (s : string) : anyByte isUpperByte (ToLower s) = false.
Proof.
  induction s as [|c s IH]; [reflexivity |].
  cbn [ToLower mapBytes anyByte]. rewrite toLowerByte_not_upper.
  exact IH.
Qed.

Lemma ToLower_idem (s : string) : ToLower (ToLower s) = ToLower s.
Proof.
  unfold ToLower. induction s as [|c s IH]; [reflexivity |].
  cbn [mapBytes]. by rewrite toLowerByte_idem, IH.
Qed.

Lemma ToLower_ToUpper (s : string) : ToLower (ToUpper s) = ToLower s.
Proof.
  unfold ToLower, ToUpper. induction s as [|c s IH]; [reflexivity |].
  cbn [mapBytes]. by rewrite toLowerByte_toUpperByte, IH.
Qed.

(** The loop of [init], from any map [m]: a key is present afterwards
    when it was present before or is the lower-cased form of one of the
    words gone through. *)
Lemma init_loop_lookup (words : list string) (m : gmap string ()) (key : string) :
  is_Some (fold_left (fun m keyword => <[ToLower keyword := ()]> m) words m !! key)
  <-> is_Some (m !! key) \/ exists keyword, keyword ∈ words /\ key = ToLower keyword.
Proof.
  revert m. induction words as [|w words IH]; intros m; simpl.
  - split; [auto | intros [H | (kw & Hin & _)]; [done | by apply elem_of_nil in Hin]].
  - rewrite IH. rewrite lookup_insert_is_Some. split.
    + intros [[Heq | [_ H]] | (kw & Hin & Hkw)].
      * right. exists w. split; [apply list_elem_of_here | done].
      * by left.
      * right. exists kw. split; [by apply list_elem_of_further | done].
    + intros [H | (kw & Hin & Hkw)].
      * left. destruct (decide (ToLower w = key)); auto.
      * apply elem_of_cons in Hin as [-> | Hin].
        -- left. by left.
        -- right. eauto.
Qed.

(** The reserved words are the listed words in lower case, and the
    check is an exact match against them. *)
Lemma IsSqlServerKeyword_iff (key : string) :
  IsSqlServerKeyword key = true
  <-> exists keyword, keyword ∈ Split sqlServerKeywords "," /\ key = ToLower keyword.
Proof.
  unfold IsSqlServerKeyword.
  pose proof (init_loop_lookup (Split sqlServerKeywords ",") ∅ key) as H.
  fold init in H. fold SqlServerKeywords in H.
  rewrite lookup_empty in H.
  destruct (SqlServerKeywords !! key) as [u|].
  - split; [intros _ | done].
    destruct (proj1 H (ex_intro _ u eq_refl)) as [[? ?] | H']; [done | exact H'].
  - split; [done |]. intros Hex.
    assert (Hs : is_Some (@None ())) by (apply H; by right).
    by destruct Hs.
Qed.

Lemma IsSqlServerKeyword_upper (key : string) :
  anyByte isUpperByte key = true -> IsSqlServerKeyword key = false.
Proof.
  intros Hup. destruct (IsSqlServerKeyword key) eqn:E; [| reflexivity].
  apply IsSqlServerKeyword_iff in E as (kw & _ & ->).
  by rewrite ToLower_no_upper in Hup.
Qed.

End Keywords.

(** * The properties the specification states *)

(** C1. [ReplaceMarks] is the left-to-right numbering of the markers: the
    marker that has [i - 1] markers before it becomes [$i], whether or not
    it stands inside a quoted literal, every other byte is copied in its
    place, and a query without a marker comes back as it is. *)
Theorem ReplaceMarks_numbers_marks (query : string) :
  ReplaceMarks query = numberMarks 1 query
  /\ (forall before after : string,
        query = before +:+ "?" +:+ after ->
        ReplaceMarks query
        = ReplaceMarks before
          +:+ "$" +:+ FormatInt (Z.of_nat (CountByte before "?") + 1)
          +:+ numberMarks (Z.of_nat (CountByte before "?") + 2) after)
  /\ (forall (before after : string) (c : ascii),
        query = before +:+ String c after -> c <> "?"%char ->
        ReplaceMarks query
        = ReplaceMarks before
          +:+ String c (numberMarks (Z.of_nat (CountByte before "?") + 1) after))
  /\ (CountByte query "?" = O -> ReplaceMarks query = query)
  /\ ReplaceMarks "a=? AND b=?" = "a=$1 AND b=$2"
  /\ ReplaceMarks "note='?' AND id=?" = "note='$1' AND id=$2"
  /\ ReplaceMarks "no markers here" = "no markers here".
Proof.
  assert (Hspec : forall q, ReplaceMarks q = numberMarks 1 q).
  { intros q. rewrite ReplaceMarks_join. apply (join_numberMarks q 0). }
  repeat split; try reflexivity.
  - apply Hspec.
  - intros before after ->. rewrite !Hspec, numberMarks_app.
    do 2 f_equal. rewrite append_cons, append_nil_l. cbn [numberMarks].
    rewrite Ascii.eqb_refl. do 3 f_equal; lia.
  - intros before after c -> Hc. rewrite !Hspec, numberMarks_app.
    f_equal. cbn [numberMarks].
    destruct (Ascii.eqb_spec c "?") as [-> | _]; [done |].
    do 2 f_equal. lia.
  - intros H. rewrite Hspec. by apply numberMarks_no_marks.
Qed.

Lemma ReplaceMarks_numbers_marks_witness :
  CountByte "select 1" "?" = O /\ ReplaceMarks "select 1" = "select 1".
Proof.
  split; [reflexivity |].
  destruct (ReplaceMarks_numbers_marks "select 1") as (_ & _ & _ & Hnone & _).
  apply Hnone. reflexivity.
Defined.

(** C2. For every operator of the supported set the table holds an entry,
    and [OperatorSQL] returns a non-empty fragment with exactly one
    placeholder marker. *)
Theorem OperatorSQL_supported (operator : string) :
  In operator supportedOperators ->
  is_Some (mssqlOperators !! operator)
  /\ OperatorSQL operator <> ""
  /\ CountByte (OperatorSQL operator) "?" = 1%nat.
Proof.
  intros Hin. split; [by apply mssqlOperators_keys |].
  unfold supportedOperators in Hin. simpl in Hin.
  repeat (destruct Hin as [<- | Hin]; [by vm_compute |]).
  destruct Hin.
Qed.

Lemma OperatorSQL_supported_witness :
  In "gte" supportedOperators
  /\ OperatorSQL "gte" <> "" /\ CountByte (OperatorSQL "gte") "?" = 1%nat.
Proof.
  assert (Hin : In "gte" supportedOperators) by (simpl; auto 10).
  split; [exact Hin |]. apply (OperatorSQL_supported "gte" Hin).
Defined.

(** C3, as the code has it. The check is an exact match against the
    listed words in lower case. It does not depend on the letter case of
    an identifier once the caller has lower-cased it: for an identifier
    of ASCII bytes, the lower-cased forms of the identifier, of its
    lower-cased form and of its upper-cased form get the same answer. An
    identifier given with an upper-case letter is never reported. *)
Theorem IsSqlServerKeyword_exact_lower (key : string) :
  isASCII key = true ->
  IsSqlServerKeyword (ToLower (ToLower key)) = IsSqlServerKeyword (ToLower key)
  /\ IsSqlServerKeyword (ToLower (ToUpper key)) = IsSqlServerKeyword (ToLower key)
  /\ (anyByte isUpperByte key = true -> IsSqlServerKeyword key = false)
  /\ (IsSqlServerKeyword key = true
      <-> exists keyword,
            In keyword (Split sqlServerKeywords ",") /\ key = ToLower keyword)
  /\ IsSqlServerKeyword "Table" = IsSqlServerKeyword "table"
  /\ IsSqlServerKeyword "TABLE" = IsSqlServerKeyword "table".
Proof.
  intros _. split; [by rewrite ToLower_idem |].
  split; [by rewrite ToLower_ToUpper |].
  split; [apply IsSqlServerKeyword_upper |].
  split; [| by vm_compute].
  rewrite IsSqlServerKeyword_iff.
  split; intros (kw & Hin & Hkw); exists kw; split; try done;
    by apply list_elem_of_In.
Qed.

Lemma IsSqlServerKeyword_exact_lower_witness :
  isASCII "Order" = true
  /\ IsSqlServerKeyword (ToLower (ToUpper "Order"))
     = IsSqlServerKeyword (ToLower "Order").
Proof.
  split; [reflexivity |].
  destruct (IsSqlServerKeyword_exact_lower "Order" eq_refl) as (_ & Hupper & _).
  exact Hupper.
Defined.

(** C3 as stated fails: the word [add] is reserved, and its upper-cased
    form is not reported. *)
Lemma IsSqlServerKeyword_case_sensitive :
  ToUpper "add" = "ADD"
  /\ ToLower "ADD" = "add"
  /\ IsSqlServerKeyword "add" = true
  /\ IsSqlServerKeyword "ADD" = false
  /\ IsSqlServerKeyword "ADD" <> IsSqlServerKeyword (ToLower "ADD").
Proof. repeat split; by vm_compute. Qed.

(** C4, as the code has it. [IndexExists] has a boolean result only. It
    hands the caller's context and the formatted query to the querier,
    drops the error the scan of the row returns, and answers whether the
    count variable is positive after the scan: the count scanned when the
    scan stored one, also when the scan went on to return an error, and
    [false] when the scan failed before it stored anything, the variable
    being zero still. *)
Theorem IndexExists_answer {Ctx error : Type}
    (ctx : Ctx) (db : dbQuerier Ctx error) (table name : string) :
  let row :=
    QueryRowContext db ctx
      (countIndexHead +:+ table +:+ countIndexMiddle +:+ name +:+ "'") in
  IndexExists ctx db table name = (fst (Scan row 0) >? 0)
  /\ IndexExists ctx db table name
     = match row with
       | RowCount n => n >? 0
       | RowErr _ => false
       | RowCountThenErr n _ => n >? 0
       end.
Proof.
  cbv zeta. unfold IndexExists. rewrite countIndexQuery_text.
  by destruct (QueryRowContext db ctx _).
Qed.

(** C4 as stated fails: the error of the scan becomes a boolean answer.
    With a querier whose row fails to scan, whatever the error, the
    answer is [false], as for a count of zero; with a querier whose row
    holds a count of one and fails when its rows are closed, the answer
    is [true], as for a count of one scanned without error. *)
Lemma IndexExists_drops_scan_error :
  IndexExists tt (failingQuerier "connection refused") "orders" "idx_total" = false
  /\ IndexExists tt (failingQuerier "permission denied") "orders" "idx_total" = false
  /\ IndexExists tt (countingQuerier 0) "orders" "idx_total" = false
  /\ Scan (QueryRowContext (failingQuerier "connection refused") tt "") 0
     = (0, Some "connection refused")
  /\ IndexExists tt (closeFailingQuerier 1 "close failed") "orders" "idx_total" = true
  /\ IndexExists tt (countingQuerier 1) "orders" "idx_total" = true
  /\ Scan (QueryRowContext (closeFailingQuerier 1 "close failed") tt "") 0
     = (1, Some "close failed").
Proof. repeat split. Qed.

(** C5. For every operator name outside the supported set the table has
    no entry, and [OperatorSQL] returns the empty string. *)
Theorem OperatorSQL_unknown (operator : string) :
  ~ In operator supportedOperators ->
  mssqlOperators !! operator = None /\ OperatorSQL operator = "".
Proof.
  intros Hout.
  assert (Hnone : mssqlOperators !! operator = None).
  { apply eq_None_not_Some. by rewrite mssqlOperators_keys. }
  split; [exact Hnone | by apply OperatorSQL_missing].
Qed.

Lemma OperatorSQL_unknown_witness :
  ~ In "regex" supportedOperators /\ OperatorSQL "regex" = "".
Proof.
  assert (Hout : ~ In "regex" supportedOperators).
  { simpl. intros H. repeat (destruct H as [H | H]; [discriminate H |]). exact H. }
  split; [exact Hout |]. apply (OperatorSQL_unknown "regex" Hout).
Defined.

(** C6. For each case-insensitive variant the fragment is that of its
    case-sensitive operator with the single placeholder wrapped in
    [UPPER(...)]: both fragments open with the same operator text, which
    holds neither a marker nor an [UPPER]; the case-sensitive one closes
    with the bare marker, the variant with [UPPER(?)]. *)
Theorem OperatorSQL_case_variants :
  Forall
    (fun pair : string * string =>
       exists operatorText : string,
         OperatorSQL pair.1 = operatorText +:+ "?"
         /\ OperatorSQL pair.2 = operatorText +:+ "UPPER(?)"
         /\ CountByte operatorText "?" = O
         /\ Contains operatorText "UPPER" = false
         /\ CountByte (OperatorSQL pair.2) "?" = 1%nat
         /\ Contains (OperatorSQL pair.1) "UPPER" = false)
    caseVariants.
Proof.
  unfold caseVariants.
  repeat (apply Forall_cons; split); [| | | | by apply Forall_nil].
  - exists "= ". by vm_compute.
  - exists "LIKE ". by vm_compute.
  - exists "LIKE ". by vm_compute.
  - exists "LIKE ". by vm_compute.
Qed.

(** C7. [HasReturningID] answers [false] for every model and query. *)
Theorem HasReturningID_never {modelInfo : Type}
    (mi : option modelInfo) (query : option string) :
  HasReturningID mi query = false.
Proof. reflexivity. Qed.

(** C8. [GenerateSpecifyIndex] returns the empty clause for every table
    name, mode and index list; all it does besides is write its one
    warning line to the log. *)
Theorem GenerateSpecifyIndex_ignored (tableName : string) (useIndex : Z)
    (indexes log : list string) :
  GenerateSpecifyIndex tableName useIndex indexes log
  = ("", log ++ [specifyIndexWarning])
  /\ HasPrefix specifyIndexWarning "[WARN]" = true.
Proof. split; reflexivity. Qed.

(** C9. [ShowColumnsQuery] is its template with the one slot, which stands
    between the quotes of the [TABLE_NAME] filter of the query on
    [INFORMATION_SCHEMA.COLUMNS], filled with the table name as it is
    given; the name [Orders] occurs once in the text made for it. *)
Theorem ShowColumnsQuery_embeds_table (table : string) :
  ShowColumnsQuery table = showColumnsHead +:+ table +:+ "';"
  /\ showColumnsSql = showColumnsHead +:+ "%s" +:+ "';"
  /\ Count showColumnsSql "%s" = 1%nat
  /\ (exists columns, showColumnsHead = columns +:+ "and TABLE_NAME = '")
  /\ Contains showColumnsHead "INFORMATION_SCHEMA.COLUMNS" = true
  /\ Count (ShowColumnsQuery "Orders") "Orders" = 1%nat.
Proof.
  split; [apply ShowColumnsQuery_text |].
  repeat split; try reflexivity.
  exists (String.substring 0 (String.length showColumnsHead - 18) showColumnsHead).
  by vm_compute.
Qed.

(** C10. The table gives [exact] and [eq] the same fragment, and gives
    [contains], [startswith] and [endswith] the same fragment. *)
Theorem OperatorSQL_shared_fragments :
  OperatorSQL "exact" = "= ?"
  /\ OperatorSQL "eq" = "= ?"
  /\ OperatorSQL "contains" = "LIKE ?"
  /\ OperatorSQL "startswith" = "LIKE ?"
  /\ OperatorSQL "endswith" = "LIKE ?"
  /\ OperatorSQL "exact" = OperatorSQL "eq"
  /\ OperatorSQL "contains" = OperatorSQL "startswith"
  /\ OperatorSQL "startswith" = OperatorSQL "endswith".
Proof. repeat split; by vm_compute. Qed.

(** * Further properties of the dialect *)

(** ** Bytes of the rewritten query *)

Section MarkBytes.

Lemma CountByte_app (a b : string) (c : ascii) :
  CountByte (a +:+ b) c = (CountByte a c + CountByte b c)%nat.
Proof.
  induction a as [|x a IH]; [reflexivity |].
  rewrite append_cons. cbn [CountByte]. rewrite IH. lia.
Qed.

Lemma digit_differs (c d : ascii) :
  isDigitByte c = false -> isDigitByte d = true -> Ascii.eqb d c = false.
Proof.
  intros Hc Hd. destruct (Ascii.eqb_spec d c) as [-> | _]; congruence.
Qed.

Lemma uint_bytes (d : Decimal.uint) (c : ascii) :
  isDigitByte c = false -> CountByte (NilEmpty.string_of_uint d) c = O.
Proof.
  intros Hc.
  induction d as [|d IH|d IH|d IH|d IH|d IH|d IH|d IH|d IH|d IH|d IH];
    cbn [NilEmpty.string_of_uint CountByte]; [reflexivity | ..];
    rewrite digit_differs by first [exact Hc | reflexivity]; exact IH.
Qed.

(** A number prints as digits, after a minus sign when it is negative. *)
Lemma FormatInt_bytes (i : Z) (c : ascii) :
  isDigitByte c = false -> c <> "-"%char -> CountByte (FormatInt i) c = O.
Proof.
  intros Hc Hminus. unfold FormatInt, NilZero.string_of_int.
  assert (Hu : forall d, CountByte (NilZero.string_of_uint d) c = O).
  { intros d. destruct d;
      [| match goal with
         | |- CountByte (NilZero.string_of_uint ?u) _ = _ =>
             exact (uint_bytes u c Hc)
         end ..].
    cbn [NilZero.string_of_uint CountByte].
    by rewrite (digit_differs c "0" Hc eq_refl). }
  destruct (Z.to_int i) as [d | d]; [apply Hu |].
  cbn [CountByte]. rewrite Hu.
  destruct (Ascii.eqb_spec "-" c) as [<- | _]; [done | reflexivity].
Qed.

(** The bytes of a numbered text, for a byte that no number holds: the
    markers are gone, every marker has left one dollar sign, and the
    other bytes are those of the text. *)
Lemma numberMarks_count (s : string) (k : Z) (c : ascii) :
  isDigitByte c = false -> c <> "-"%char ->
  CountByte (numberMarks k s) c
  = ((if Ascii.eqb c "?" then O else CountByte s c)
     + (if Ascii.eqb c "$" then CountByte s "?" else O))%nat.
Proof.
  intros Hc Hminus. revert k.
  induction s as [|x s IH]; intros k; cbn [numberMarks CountByte].
  - by destruct (Ascii.eqb c "?"), (Ascii.eqb c "$").
  - destruct (Ascii.eqb_spec x "?") as [-> | Hx].
    + rewrite !CountByte_app, FormatInt_bytes, IH by done.
      cbn [CountByte]. rewrite (Ascii.eqb_sym "$" c), (Ascii.eqb_sym "?" c).
      destruct (Ascii.eqb c "?"), (Ascii.eqb c "$"); lia.
    + cbn [CountByte]. rewrite IH.
      destruct (Ascii.eqb_spec x c) as [<- | Hxc].
      * apply Ascii.eqb_neq in Hx. rewrite Hx.
        destruct (Ascii.eqb x "$"); lia.
      * destruct (Ascii.eqb c "?"), (Ascii.eqb c "$"); lia.
Qed.

Lemma ReplaceMarks_numberMarks (query : string) :
  ReplaceMarks query = numberMarks 1 query.
Proof. rewrite ReplaceMarks_join. apply (join_numberMarks query 0). Qed.

End MarkBytes.

(** X1. No marker is left in a query that went through [ReplaceMarks]. *)
Theorem ReplaceMarks_leaves_no_marker (query : string) :
  CountByte (ReplaceMarks query) "?" = O.
Proof.
  rewrite ReplaceMarks_numberMarks, numberMarks_count by done.
  reflexivity.
Qed.

(** X2. The rewritten query has one dollar sign more for every marker of
    the query: [k] markers give [k] placeholders, beside the dollar signs
    the query already had. *)
Theorem ReplaceMarks_placeholder_count (query : string) :
  CountByte (ReplaceMarks query) "$"
  = (CountByte query "$" + CountByte query "?")%nat.
Proof.
  rewrite ReplaceMarks_numberMarks, numberMarks_count by done.
  reflexivity.
Qed.

(** X3. A byte that is neither the marker, nor the dollar sign, nor a
    digit, nor the minus sign occurs in the rewritten query as often as in
    the query. *)
Theorem ReplaceMarks_keeps_other_bytes (query : string) (c : ascii) :
  c <> "?"%char -> c <> "$"%char -> c <> "-"%char -> isDigitByte c = false ->
  CountByte (ReplaceMarks query) c = CountByte query c.
Proof.
  intros Hmark Hdollar Hminus Hdigit.
  rewrite ReplaceMarks_numberMarks, numberMarks_count by done.
  apply Ascii.eqb_neq in Hmark, Hdollar. rewrite Hmark, Hdollar. lia.
Qed.

Lemma ReplaceMarks_keeps_other_bytes_witness :
  isDigitByte "'" = false
  /\ CountByte (ReplaceMarks "a='x' AND b=? AND c='y'") "'"
     = CountByte "a='x' AND b=? AND c='y'" "'".
Proof.
  split; [reflexivity |].
  apply ReplaceMarks_keeps_other_bytes; [discriminate .. | reflexivity].
Defined.

(** X4. [ReplaceMarks] is idempotent: a query that went through it goes
    through it again unchanged. *)
Theorem ReplaceMarks_idempotent (query : string) :
  ReplaceMarks (ReplaceMarks query) = ReplaceMarks query.
Proof.
  rewrite (ReplaceMarks_numberMarks (ReplaceMarks query)).
  apply numberMarks_no_marks.
  rewrite ReplaceMarks_numberMarks, numberMarks_count by done.
  reflexivity.
Qed.

(** ** Rewriting a query in parts *)

Section MarkParts.

(** A fragment with one marker, put after a query, takes the number that
    follows the markers of the query; the text after it goes on from
    there. *)
Lemma numberMarks_one_marker (query opening closing rest : string) :
  CountByte opening "?" = O -> CountByte closing "?" = O ->
  numberMarks 1 (query +:+ (opening +:+ "?" +:+ closing) +:+ rest)
  = numberMarks 1 query
    +:+ opening +:+ "$" +:+ FormatInt (Z.of_nat (CountByte query "?") + 1)
    +:+ closing +:+ numberMarks (Z.of_nat (CountByte query "?") + 2) rest.
Proof.
  intros Hopen Hclose.
  rewrite !numberMarks_app, !CountByte_app, Hopen, Hclose.
  rewrite (numberMarks_no_marks opening), (numberMarks_no_marks closing) by done.
  cbn [numberMarks CountByte Ascii.eqb Bool.eqb Nat.add Z.of_nat].
  replace (1 + Z.of_nat (CountByte query "?") + Z.of_nat 0)
    with (Z.of_nat (CountByte query "?") + 1) by lia.
  replace (1 + Z.of_nat (CountByte query "?") + Z.of_nat 1)
    with (Z.of_nat (CountByte query "?") + 2) by lia.
  by rewrite append_nil_r, !append_assoc.
Qed.

End MarkParts.

(** X5. A condition built with the fragment of a supported operator takes
    exactly one placeholder number: the fragment's marker becomes the
    placeholder that follows those of the query before it, the rest of the
    fragment is copied, and the text after it is numbered from the next
    number on. *)
Theorem ReplaceMarks_after_OperatorSQL (operator query rest : string) :
  In operator supportedOperators ->
  exists opening closing : string,
    OperatorSQL operator = opening +:+ "?" +:+ closing
    /\ ReplaceMarks (query +:+ OperatorSQL operator +:+ rest)
       = ReplaceMarks query
         +:+ opening +:+ "$" +:+ FormatInt (Z.of_nat (CountByte query "?") + 1)
         +:+ closing +:+ numberMarks (Z.of_nat (CountByte query "?") + 2) rest.
Proof.
  intros Hin.
  assert (Hfrag : exists opening closing : string,
            OperatorSQL operator = opening +:+ "?" +:+ closing
            /\ CountByte opening "?" = O /\ CountByte closing "?" = O).
  { unfold supportedOperators in Hin. simpl in Hin.
    destruct Hin as [<- | Hin]; [by exists "= ", "" |].
    destruct Hin as [<- | Hin]; [by exists "= UPPER(", ")" |].
    destruct Hin as [<- | Hin]; [by exists "LIKE ", "" |].
    destruct Hin as [<- | Hin]; [by exists "LIKE UPPER(", ")" |].
    destruct Hin as [<- | Hin]; [by exists "> ", "" |].
    destruct Hin as [<- | Hin]; [by exists ">= ", "" |].
    destruct Hin as [<- | Hin]; [by exists "< ", "" |].
    destruct Hin as [<- | Hin]; [by exists "<= ", "" |].
    destruct Hin as [<- | Hin]; [by exists "= ", "" |].
    destruct Hin as [<- | Hin]; [by exists "!= ", "" |].
    destruct Hin as [<- | Hin]; [by exists "LIKE ", "" |].
    destruct Hin as [<- | Hin]; [by exists "LIKE ", "" |].
    destruct Hin as [<- | Hin]; [by exists "LIKE UPPER(", ")" |].
    destruct Hin as [<- | Hin]; [by exists "LIKE UPPER(", ")" |].
    destruct Hin. }
  destruct Hfrag as (opening & closing & Heq & Hopen & Hclose).
  exists opening, closing. split; [exact Heq |].
  rewrite Heq, !ReplaceMarks_numberMarks.
  by apply numberMarks_one_marker.
Qed.

Lemma ReplaceMarks_after_OperatorSQL_witness :
  In "icontains" supportedOperators
  /\ exists opening closing : string,
       OperatorSQL "icontains" = opening +:+ "?" +:+ closing
       /\ ReplaceMarks ("a = ? AND b " +:+ OperatorSQL "icontains" +:+ " AND c > ?")
          = ReplaceMarks "a = ? AND b "
            +:+ opening +:+ "$"
            +:+ FormatInt (Z.of_nat (CountByte "a = ? AND b " "?") + 1)
            +:+ closing
            +:+ numberMarks (Z.of_nat (CountByte "a = ? AND b " "?") + 2) " AND c > ?".
Proof.
  assert (Hin : In "icontains" supportedOperators) by (simpl; auto 10).
  split; [exact Hin |].
  exact (ReplaceMarks_after_OperatorSQL "icontains" "a = ? AND b " " AND c > ?" Hin).
Defined.

(** X6. [ReplaceMarks] leaves a part without markers as it is: such a
    part before the rest is copied and the rest is rewritten on its own;
    such a part after the rest is copied behind the rewritten rest. *)
Theorem ReplaceMarks_marker_free_part (first second : string) :
  (CountByte first "?" = O ->
   ReplaceMarks (first +:+ second) = first +:+ ReplaceMarks second)
  /\ (CountByte second "?" = O ->
      ReplaceMarks (first +:+ second) = ReplaceMarks first +:+ second).
Proof.
  rewrite !ReplaceMarks_numberMarks, numberMarks_app. split; intros H.
  - rewrite H, (numberMarks_no_marks first) by done.
    by rewrite Z.add_0_r.
  - by rewrite (numberMarks_no_marks second).
Qed.

Lemma ReplaceMarks_marker_free_part_witness :
  CountByte "SELECT * FROM t WHERE " "?" = O
  /\ ReplaceMarks ("SELECT * FROM t WHERE " +:+ "a = ?")
     = "SELECT * FROM t WHERE " +:+ ReplaceMarks "a = ?".
Proof.
  split; [reflexivity |].
  destruct (ReplaceMarks_marker_free_part "SELECT * FROM t WHERE " "a = ?")
    as [Hfirst _].
  apply Hfirst. reflexivity.
Defined.

(** ** Names in the catalog queries *)

Section Names.

Lemma length_append (a b : string) :
  String.length (a +:+ b) = (String.length a + String.length b)%nat.
Proof.
  induction a as [|x a IH]; [reflexivity |].
  rewrite append_cons. cbn [String.length]. by rewrite IH.
Qed.

Lemma append_cancel_r (a b c : string) : a +:+ c = b +:+ c -> a = b.
Proof.
  revert b. induction a as [|x a IH]; intros [|y b] H.
  - reflexivity.
  - apply (f_equal String.length) in H.
    rewrite append_nil_l, append_cons in H. cbn [String.length] in H.
    rewrite length_append in H. lia.
  - apply (f_equal String.length) in H.
    rewrite append_nil_l, append_cons in H. cbn [String.length] in H.
    rewrite length_append in H. lia.
  - rewrite !append_cons in H. injection H as -> H.
    by rewrite (IH b H).
Qed.

(** Two texts that agree, each cut at a byte that does not occur before
    the cut, agree before and after the cut. *)
Lemma cut_at_first (a b r1 r2 : string) (c : ascii) :
  CountByte a c = O -> CountByte b c = O ->
  a +:+ String c r1 = b +:+ String c r2 -> a = b /\ r1 = r2.
Proof.
  revert b. induction a as [|x a IH]; intros [|y b] Ha Hb H.
  - rewrite !append_nil_l in H. by injection H as ->.
  - rewrite append_nil_l, append_cons in H. injection H as <- _.
    cbn [CountByte] in Hb. rewrite Ascii.eqb_refl in Hb. lia.
  - rewrite append_nil_l, append_cons in H. injection H as -> _.
    cbn [CountByte] in Ha. rewrite Ascii.eqb_refl in Ha. lia.
  - rewrite !append_cons in H. injection H as -> H.
    cbn [CountByte] in Ha, Hb.
    destruct (IH b) as [-> ->]; [lia | lia | exact H | done].
Qed.

End Names.

(** X7. [ShowColumnsQuery] is injective: two table names with the same
    query are the same name. *)
Theorem ShowColumnsQuery_injective (table1 table2 : string) :
  ShowColumnsQuery table1 = ShowColumnsQuery table2 -> table1 = table2.
Proof.
  rewrite !ShowColumnsQuery_text. intros H.
  apply (inj (String.append showColumnsHead)) in H.
  by apply append_cancel_r in H.
Qed.

Lemma ShowColumnsQuery_injective_witness :
  ShowColumnsQuery "Orders" = ShowColumnsQuery ("Ord" +:+ "ers")
  /\ "Orders" = "Ord" +:+ "ers".
Proof.
  assert (H : ShowColumnsQuery "Orders" = ShowColumnsQuery ("Ord" +:+ "ers"))
    by reflexivity.
  split; [exact H |].
  exact (ShowColumnsQuery_injective "Orders" ("Ord" +:+ "ers") H).
Defined.

(** X8. For table and index names without a quote, the query that
    [IndexExists] sends tells the names: two pairs of names with the same
    query are the same pair. *)
Theorem IndexExists_query_injective (table1 name1 table2 name2 : string) :
  CountByte table1 "'" = O -> CountByte name1 "'" = O ->
  CountByte table2 "'" = O -> CountByte name2 "'" = O ->
  Sprintf countIndexSql [table1; name1] = Sprintf countIndexSql [table2; name2] ->
  table1 = table2 /\ name1 = name2.
Proof.
  intros Ht1 Hn1 Ht2 Hn2. rewrite !countIndexQuery_text. intros H.
  apply (inj (String.append countIndexHead)) in H.
  change countIndexMiddle
    with (String "'" (LF +:+ TAB +:+ "AND i.name = '")) in H.
  rewrite !append_cons in H.
  apply cut_at_first in H as [-> H]; [| done | done].
  split; [reflexivity |].
  apply (inj (String.append _)) in H.
  by apply (cut_at_first name1 name2 "" "" "'") in H as [-> _].
Qed.

Lemma IndexExists_query_injective_witness :
  Sprintf countIndexSql ["orders"; "idx_total"]
  = Sprintf countIndexSql ["ord" +:+ "ers"; "idx_" +:+ "total"]
  /\ "orders" = "ord" +:+ "ers" /\ "idx_total" = "idx_" +:+ "total".
Proof.
  assert (H : Sprintf countIndexSql ["orders"; "idx_total"]
              = Sprintf countIndexSql ["ord" +:+ "ers"; "idx_" +:+ "total"])
    by reflexivity.
  split; [exact H |].
  exact (IndexExists_query_injective "orders" "idx_total"
           ("ord" +:+ "ers") ("idx_" +:+ "total")
           eq_refl eq_refl eq_refl eq_refl H).
Defined.

(** X9. [IndexExists] does not escape the names it puts into its query: a
    table name that goes on with the text between the two slots and a
    piece [y] gives the query, and so the answer, of the shorter table
    name with an index name that starts with [y] and that text. *)
Theorem IndexExists_names_not_escaped {Ctx error : Type}
    (ctx : Ctx) (db : dbQuerier Ctx error) (x y z : string) :
  Sprintf countIndexSql [x +:+ countIndexMiddle +:+ y; z]
  = Sprintf countIndexSql [x; y +:+ countIndexMiddle +:+ z]
  /\ IndexExists ctx db (x +:+ countIndexMiddle +:+ y) z
     = IndexExists ctx db x (y +:+ countIndexMiddle +:+ z).
Proof.
  assert (Hq : Sprintf countIndexSql [x +:+ countIndexMiddle +:+ y; z]
               = Sprintf countIndexSql [x; y +:+ countIndexMiddle +:+ z]).
  { rewrite !countIndexQuery_text. by rewrite !append_assoc. }
  split; [exact Hq |].
  unfold IndexExists. by rewrite Hq.
Qed.

(** ** The column types *)

(** X10. Every field kind of the table has a non-empty column type whose
    only verbs are [%d]: one for [string] and [string-char], two for
    [float64-decimal], none for any other kind. *)
Theorem DbTypes_size_slots (kind template : string) :
  DbTypes !! kind = Some template ->
  template <> ""
  /\ CountByte template "%" = Count template "%d"
  /\ Count template "%d"
     = if decide (kind = "float64-decimal") then 2%nat
       else if decide (kind = "string" \/ kind = "string-char") then 1%nat
       else 0%nat.
Proof.
  intros H. unfold DbTypes, mssqlTypes in H.
  apply elem_of_list_to_map_2 in H.
  repeat (apply elem_of_cons in H as [[= -> ->] | H]; [by vm_compute |]).
  by apply elem_of_nil in H.
Qed.

Lemma DbTypes_size_slots_witness :
  DbTypes !! "float64-decimal" = Some "number(%d, %d)"
  /\ Count "number(%d, %d)" "%d" = 2%nat.
Proof.
  assert (H : DbTypes !! "float64-decimal" = Some "number(%d, %d)")
    by reflexivity.
  split; [exact H |].
  exact (proj2 (proj2 (DbTypes_size_slots "float64-decimal" "number(%d, %d)" H))).
Defined.

(** X11. An unsigned integer kind has the column type of the signed kind
    of its width. *)
Theorem DbTypes_unsigned_as_signed (kind signed : string) :
  signedKind kind = Some signed ->
  is_Some (DbTypes !! kind) /\ DbTypes !! kind = DbTypes !! signed.
Proof.
  unfold signedKind. intros H.
  repeat case_decide; simplify_eq;
    (split; [apply (bool_decide_unpack _) |]; by vm_compute).
Qed.

Lemma DbTypes_unsigned_as_signed_witness :
  signedKind "uint64" = Some "int64"
  /\ DbTypes !! "uint64" = DbTypes !! "int64".
Proof.
  split; [reflexivity |].
  exact (proj2 (DbTypes_unsigned_as_signed "uint64" "int64" eq_refl)).
Defined.

(** ** The bytes of the fragments *)

(** X12. Whatever the operator name, known or not, the fragment
    [OperatorSQL] returns holds no [%] wildcard, no quote and no dollar
    sign, and at most one marker: the wildcards of a [LIKE] match are not
    supplied by the fragment. *)
Theorem OperatorSQL_fragment_bytes (operator : string) :
  CountByte (OperatorSQL operator) "%" = O
  /\ CountByte (OperatorSQL operator) "'" = O
  /\ CountByte (OperatorSQL operator) "$" = O
  /\ (CountByte (OperatorSQL operator) "?" <= 1)%nat.
Proof.
  unfold OperatorSQL.
  destruct (mssqlOperators !! operator) as [fragment|] eqn:H;
    [| repeat split; vm_compute; lia].
  unfold mssqlOperators in H. apply elem_of_list_to_map_2 in H.
  cbn [default].
  repeat (apply elem_of_cons in H as [[= -> ->] | H];
          [repeat split; vm_compute; lia |]).
  by apply elem_of_nil in H.
Qed.
